(** * ELF symbols: a shallow embedding of [ELF/Symbols.h]

    The header defines the base class [Symbol], its five derived classes
    ([Defined], [Undefined], [SharedSymbol], [LazyArchive], [LazyObject]), the
    buffer [SymbolUnion] that holds any of them, and [replaceSymbol], which
    constructs a new variant over the buffer's current occupant.

    Integers are [Z] holding the value of the C++ unsigned type; the only
    wrap-around the header performs is the conversion of [-1] to [uint32_t],
    written out as [to_uint32].  One-bit bit-fields are [bool].  Pointers to
    objects owned elsewhere are [option] of an opaque handle, [None] being
    [nullptr]; a C++ reference is the handle itself. *)

From Stdlib Require Import ZArith Bool List String Lia.
Import ListNotations.
Local Open Scope Z_scope.

(** ** Constants of [llvm/BinaryFormat/ELF.h] used by the header *)

Module ELF.
(* Symbol bindings. *)
Definition STB_LOCAL : Z := 0.
Definition STB_GLOBAL : Z := 1.
Definition STB_WEAK : Z := 2.
(* Symbol types. *)
Definition STT_OBJECT : Z := 1.
Definition STT_FUNC : Z := 2.
Definition STT_SECTION : Z := 3.
Definition STT_FILE : Z := 4.
Definition STT_TLS : Z := 6.
Definition STT_GNU_IFUNC : Z := 10.
(* Symbol visibility. *)
Definition STV_DEFAULT : Z := 0.
End ELF.

(** ** Machine integers *)

Definition uint8_t := Z.
Definition uint16_t := Z.
Definition uint32_t := Z.
Definition uint64_t := Z.

(* Conversion of a signed value to [uint32_t]: reduction modulo 2^32. *)
Definition to_uint32 (z : Z) : uint32_t := z mod 2 ^ 32.

(* The literal [-1U]. *)
Definition minus1U : uint32_t := to_uint32 (-1).

(** ** Opaque collaborators *)

(* Objects of other subsystems are known to this header by address only. *)
Definition InputFile := N.
Definition SectionBase := N.
Definition InputSection := N.

(* [llvm::object::Archive::Symbol]: position of a symbol in an archive's
   symbol table, and the name found there. *)
Record ArchiveSymbol := mkArchiveSymbol {
  SymbolIndex : Z;
  StringIndex : Z;
  ArchiveSymbol_getName : string
}.

(* The part of the global [Config] the header reads. *)
Record Configuration := mkConfiguration {
  GcSections : bool
}.

(** ** class Symbol *)

Inductive Kind :=
| DefinedKind
| SharedKind
| UndefinedKind
| LazyArchiveKind
| LazyObjectKind.

Definition Kind_eqb (a b : Kind) : bool :=
  match a, b with
  | DefinedKind, DefinedKind
  | SharedKind, SharedKind
  | UndefinedKind, UndefinedKind
  | LazyArchiveKind, LazyArchiveKind
  | LazyObjectKind, LazyObjectKind => true
  | _, _ => false
  end.

(* The data members of [Symbol], in declaration order.  [Type] is a keyword,
   so the member of that name is [Type_]. *)
Record Symbol := mkSymbol {
  Binding : uint8_t;
  VersionId : uint16_t;
  Visibility : Z;                 (* unsigned : 2 *)
  IsUsedInRegularObj : bool;
  ExportDynamic : bool;
  CanInline : bool;
  Traced : bool;
  InVersionScript : bool;
  File : option InputFile;
  DynsymIndex : uint32_t;
  GotIndex : uint32_t;
  GotPltIndex : uint32_t;
  PltIndex : uint32_t;
  GlobalDynIndex : uint32_t;
  SymbolKind : Kind;              (* const unsigned : 8 *)
  NeedsPltAddr : bool;
  IsInGlobalMipsGot : bool;
  Is32BitMipsGot : bool;
  IsInIplt : bool;
  IsInIgot : bool;
  IsPreemptible : bool;
  Used : bool;
  Type_ : uint8_t;
  StOther : uint8_t;
  Name : string
}.

Definition UnknownType : Z := 255.

Definition kind (s : Symbol) : Kind := SymbolKind s.

Definition isWeak (s : Symbol) : bool := Binding s =? ELF.STB_WEAK.
Definition isUndefined (s : Symbol) : bool := Kind_eqb (SymbolKind s) UndefinedKind.
Definition isDefined (s : Symbol) : bool := Kind_eqb (SymbolKind s) DefinedKind.
Definition isShared (s : Symbol) : bool := Kind_eqb (SymbolKind s) SharedKind.
Definition isLocal (s : Symbol) : bool := Binding s =? ELF.STB_LOCAL.

Definition isLazy (s : Symbol) : bool :=
  Kind_eqb (SymbolKind s) LazyArchiveKind || Kind_eqb (SymbolKind s) LazyObjectKind.

Definition isUndefWeak (s : Symbol) : bool :=
  isWeak s && (isUndefined s || isLazy s).

Definition getName (s : Symbol) : string := Name s.

Definition isInGot (s : Symbol) : bool := negb (GotIndex s =? minus1U).
Definition isInPlt (s : Symbol) : bool := negb (PltIndex s =? minus1U).

Definition isSection (s : Symbol) : bool := Type_ s =? ELF.STT_SECTION.
Definition isTls (s : Symbol) : bool := Type_ s =? ELF.STT_TLS.
Definition isFunc (s : Symbol) : bool := Type_ s =? ELF.STT_FUNC.
Definition isGnuIFunc (s : Symbol) : bool := Type_ s =? ELF.STT_GNU_IFUNC.
Definition isObject (s : Symbol) : bool := Type_ s =? ELF.STT_OBJECT.
Definition isFile (s : Symbol) : bool := Type_ s =? ELF.STT_FILE.

(** ** Assignment to a data member

    [set_F v s] is [s] after [s.F = v].  Every use below stores a value read
    from a member of the same type and width, so no conversion is involved. *)

Definition set_VersionId (v : uint16_t) (s : Symbol) : Symbol :=
  {| Binding := Binding s;
     VersionId := v;
     Visibility := Visibility s;
     IsUsedInRegularObj := IsUsedInRegularObj s;
     ExportDynamic := ExportDynamic s;
     CanInline := CanInline s;
     Traced := Traced s;
     InVersionScript := InVersionScript s;
     File := File s;
     DynsymIndex := DynsymIndex s;
     GotIndex := GotIndex s;
     GotPltIndex := GotPltIndex s;
     PltIndex := PltIndex s;
     GlobalDynIndex := GlobalDynIndex s;
     SymbolKind := SymbolKind s;
     NeedsPltAddr := NeedsPltAddr s;
     IsInGlobalMipsGot := IsInGlobalMipsGot s;
     Is32BitMipsGot := Is32BitMipsGot s;
     IsInIplt := IsInIplt s;
     IsInIgot := IsInIgot s;
     IsPreemptible := IsPreemptible s;
     Used := Used s;
     Type_ := Type_ s;
     StOther := StOther s;
     Name := Name s |}.

Definition set_Visibility (v : Z) (s : Symbol) : Symbol :=
  {| Binding := Binding s;
     VersionId := VersionId s;
     Visibility := v;
     IsUsedInRegularObj := IsUsedInRegularObj s;
     ExportDynamic := ExportDynamic s;
     CanInline := CanInline s;
     Traced := Traced s;
     InVersionScript := InVersionScript s;
     File := File s;
     DynsymIndex := DynsymIndex s;
     GotIndex := GotIndex s;
     GotPltIndex := GotPltIndex s;
     PltIndex := PltIndex s;
     GlobalDynIndex := GlobalDynIndex s;
     SymbolKind := SymbolKind s;
     NeedsPltAddr := NeedsPltAddr s;
     IsInGlobalMipsGot := IsInGlobalMipsGot s;
     Is32BitMipsGot := Is32BitMipsGot s;
     IsInIplt := IsInIplt s;
     IsInIgot := IsInIgot s;
     IsPreemptible := IsPreemptible s;
     Used := Used s;
     Type_ := Type_ s;
     StOther := StOther s;
     Name := Name s |}.

Definition set_IsUsedInRegularObj (v : bool) (s : Symbol) : Symbol :=
  {| Binding := Binding s;
     VersionId := VersionId s;
     Visibility := Visibility s;
     IsUsedInRegularObj := v;
     ExportDynamic := ExportDynamic s;
     CanInline := CanInline s;
     Traced := Traced s;
     InVersionScript := InVersionScript s;
     File := File s;
     DynsymIndex := DynsymIndex s;
     GotIndex := GotIndex s;
     GotPltIndex := GotPltIndex s;
     PltIndex := PltIndex s;
     GlobalDynIndex := GlobalDynIndex s;
     SymbolKind := SymbolKind s;
     NeedsPltAddr := NeedsPltAddr s;
     IsInGlobalMipsGot := IsInGlobalMipsGot s;
     Is32BitMipsGot := Is32BitMipsGot s;
     IsInIplt := IsInIplt s;
     IsInIgot := IsInIgot s;
     IsPreemptible := IsPreemptible s;
     Used := Used s;
     Type_ := Type_ s;
     StOther := StOther s;
     Name := Name s |}.

Definition set_ExportDynamic (v : bool) (s : Symbol) : Symbol :=
  {| Binding := Binding s;
     VersionId := VersionId s;
     Visibility := Visibility s;
     IsUsedInRegularObj := IsUsedInRegularObj s;
     ExportDynamic := v;
     CanInline := CanInline s;
     Traced := Traced s;
     InVersionScript := InVersionScript s;
     File := File s;
     DynsymIndex := DynsymIndex s;
     GotIndex := GotIndex s;
     GotPltIndex := GotPltIndex s;
     PltIndex := PltIndex s;
     GlobalDynIndex := GlobalDynIndex s;
     SymbolKind := SymbolKind s;
     NeedsPltAddr := NeedsPltAddr s;
     IsInGlobalMipsGot := IsInGlobalMipsGot s;
     Is32BitMipsGot := Is32BitMipsGot s;
     IsInIplt := IsInIplt s;
     IsInIgot := IsInIgot s;
     IsPreemptible := IsPreemptible s;
     Used := Used s;
     Type_ := Type_ s;
     StOther := StOther s;
     Name := Name s |}.

Definition set_CanInline (v : bool) (s : Symbol) : Symbol :=
  {| Binding := Binding s;
     VersionId := VersionId s;
     Visibility := Visibility s;
     IsUsedInRegularObj := IsUsedInRegularObj s;
     ExportDynamic := ExportDynamic s;
     CanInline := v;
     Traced := Traced s;
     InVersionScript := InVersionScript s;
     File := File s;
     DynsymIndex := DynsymIndex s;
     GotIndex := GotIndex s;
     GotPltIndex := GotPltIndex s;
     PltIndex := PltIndex s;
     GlobalDynIndex := GlobalDynIndex s;
     SymbolKind := SymbolKind s;
     NeedsPltAddr := NeedsPltAddr s;
     IsInGlobalMipsGot := IsInGlobalMipsGot s;
     Is32BitMipsGot := Is32BitMipsGot s;
     IsInIplt := IsInIplt s;
     IsInIgot := IsInIgot s;
     IsPreemptible := IsPreemptible s;
     Used := Used s;
     Type_ := Type_ s;
     StOther := StOther s;
     Name := Name s |}.

Definition set_Traced (v : bool) (s : Symbol) : Symbol :=
  {| Binding := Binding s;
     VersionId := VersionId s;
     Visibility := Visibility s;
     IsUsedInRegularObj := IsUsedInRegularObj s;
     ExportDynamic := ExportDynamic s;
     CanInline := CanInline s;
     Traced := v;
     InVersionScript := InVersionScript s;
     File := File s;
     DynsymIndex := DynsymIndex s;
     GotIndex := GotIndex s;
     GotPltIndex := GotPltIndex s;
     PltIndex := PltIndex s;
     GlobalDynIndex := GlobalDynIndex s;
     SymbolKind := SymbolKind s;
     NeedsPltAddr := NeedsPltAddr s;
     IsInGlobalMipsGot := IsInGlobalMipsGot s;
     Is32BitMipsGot := Is32BitMipsGot s;
     IsInIplt := IsInIplt s;
     IsInIgot := IsInIgot s;
     IsPreemptible := IsPreemptible s;
     Used := Used s;
     Type_ := Type_ s;
     StOther := StOther s;
     Name := Name s |}.

Definition set_InVersionScript (v : bool) (s : Symbol) : Symbol :=
  {| Binding := Binding s;
     VersionId := VersionId s;
     Visibility := Visibility s;
     IsUsedInRegularObj := IsUsedInRegularObj s;
     ExportDynamic := ExportDynamic s;
     CanInline := CanInline s;
     Traced := Traced s;
     InVersionScript := v;
     File := File s;
     DynsymIndex := DynsymIndex s;
     GotIndex := GotIndex s;
     GotPltIndex := GotPltIndex s;
     PltIndex := PltIndex s;
     GlobalDynIndex := GlobalDynIndex s;
     SymbolKind := SymbolKind s;
     NeedsPltAddr := NeedsPltAddr s;
     IsInGlobalMipsGot := IsInGlobalMipsGot s;
     Is32BitMipsGot := Is32BitMipsGot s;
     IsInIplt := IsInIplt s;
     IsInIgot := IsInIgot s;
     IsPreemptible := IsPreemptible s;
     Used := Used s;
     Type_ := Type_ s;
     StOther := StOther s;
     Name := Name s |}.

Definition set_Type_ (v : uint8_t) (s : Symbol) : Symbol :=
  {| Binding := Binding s;
     VersionId := VersionId s;
     Visibility := Visibility s;
     IsUsedInRegularObj := IsUsedInRegularObj s;
     ExportDynamic := ExportDynamic s;
     CanInline := CanInline s;
     Traced := Traced s;
     InVersionScript := InVersionScript s;
     File := File s;
     DynsymIndex := DynsymIndex s;
     GotIndex := GotIndex s;
     GotPltIndex := GotPltIndex s;
     PltIndex := PltIndex s;
     GlobalDynIndex := GlobalDynIndex s;
     SymbolKind := SymbolKind s;
     NeedsPltAddr := NeedsPltAddr s;
     IsInGlobalMipsGot := IsInGlobalMipsGot s;
     Is32BitMipsGot := Is32BitMipsGot s;
     IsInIplt := IsInIplt s;
     IsInIgot := IsInIgot s;
     IsPreemptible := IsPreemptible s;
     Used := Used s;
     Type_ := v;
     StOther := StOther s;
     Name := Name s |}.

(** The members that neither a default member initializer nor the
    constructor's initializer list gives a value: after construction they hold
    whatever the storage holds.  A constructor of the model receives that
    content as an argument of this type. *)
Record Uninitialized := mkUninitialized {
  uVersionId : uint16_t;
  uVisibility : Z;
  uIsUsedInRegularObj : bool;
  uExportDynamic : bool;
  uCanInline : bool;
  uTraced : bool;
  uInVersionScript : bool
}.

(** ** The derived classes

    What each derived class adds to [Symbol], and the object a [SymbolUnion]
    buffer holds: the base sub-object and the members of its dynamic class. *)

Inductive Members :=
| DefinedMembers (Value Size : uint64_t) (Section : option SectionBase)
| UndefinedMembers
| SharedSymbolMembers (CopyRelSec : option InputSection)
    (Value Size : uint64_t) (VerdefIndex Alignment : uint32_t)
| LazyArchiveMembers (Sym : ArchiveSymbol)
| LazyObjectMembers.

Record SymbolUnion := mkSymbolUnion {
  base : Symbol;
  members : Members
}.

(** The template argument [T] of [replaceSymbol] together with its argument
    pack [Arg]. *)

Inductive CtorArgs :=
| NewDefined (File : option InputFile) (Name : string)
    (Binding StOther Type' : uint8_t) (Value Size : uint64_t)
    (Section : option SectionBase)
| NewUndefined (File : option InputFile) (Name : string)
    (Binding StOther Type' : uint8_t)
| NewSharedSymbol (File : InputFile) (Name : string)
    (Binding StOther Type' : uint8_t) (Value Size : uint64_t)
    (Alignment VerdefIndex : uint32_t)
| NewLazyArchive (File : InputFile) (S : ArchiveSymbol) (Type' : uint8_t)
| NewLazyObject (File : InputFile) (Name : string) (Type' : uint8_t).

(* The class named by [T]. *)
Definition target_kind (Arg : CtorArgs) : Kind :=
  match Arg with
  | NewDefined _ _ _ _ _ _ _ _ => DefinedKind
  | NewUndefined _ _ _ _ _ => UndefinedKind
  | NewSharedSymbol _ _ _ _ _ _ _ _ _ => SharedKind
  | NewLazyArchive _ _ _ => LazyArchiveKind
  | NewLazyObject _ _ _ => LazyObjectKind
  end.

(* The name the constructor of [T] is given. *)
Definition target_name (Arg : CtorArgs) : string :=
  match Arg with
  | NewDefined _ Name _ _ _ _ _ _ => Name
  | NewUndefined _ Name _ _ _ => Name
  | NewSharedSymbol _ Name _ _ _ _ _ _ _ => Name
  | NewLazyArchive _ Sym _ => ArchiveSymbol_getName Sym
  | NewLazyObject _ Name _ => Name
  end.

(* The binding the constructor of [T] passes to [Symbol::Symbol]. *)
Definition target_binding (Arg : CtorArgs) : uint8_t :=
  match Arg with
  | NewDefined _ _ Binding _ _ _ _ _ => Binding
  | NewUndefined _ _ Binding _ _ => Binding
  | NewSharedSymbol _ _ Binding _ _ _ _ _ _ => Binding
  | NewLazyArchive _ _ _ => ELF.STB_GLOBAL
  | NewLazyObject _ _ _ => ELF.STB_GLOBAL
  end.

(* An assignment through [S->]: it changes the base sub-object only. *)
Definition assign (f : Symbol -> Symbol) (S : SymbolUnion) : SymbolUnion :=
  {| base := f (base S); members := members S |}.

(** [printTraceSymbol] is declared here and defined elsewhere; what this
    header determines is when it is called and what it is shown.  A
    computation carries the sequence of symbols the hook was called with. *)

Definition TraceLog := list SymbolUnion.

Definition Traceable (A : Type) : Type := TraceLog -> A * TraceLog.

Definition ret {A : Type} (a : A) : Traceable A := fun log => (a, log).

Definition bind {A B : Type} (m : Traceable A) (k : A -> Traceable B) : Traceable B :=
  fun log => let (a, log') := m log in k a log'.

Notation "x <- m ;; k" := (bind m (fun x => k))
  (at level 61, m at next level, right associativity).
Notation "m ;;; k" := (bind m (fun _ => k))
  (at level 61, right associativity).

Definition printTraceSymbol (Sym : SymbolUnion) : Traceable unit :=
  fun log => (tt, log ++ [Sym]).

Definition when (b : bool) (m : Traceable unit) : Traceable unit :=
  if b then m else ret tt.

(** ** Constructors and replaceSymbol *)

Section WithConfig.

Variable Config : Configuration.

(* [Symbol::Symbol]. *)
Definition Symbol_ctor (K : Kind) (File : option InputFile) (Name : string)
    (Binding StOther Type' : uint8_t) (u : Uninitialized) : Symbol :=
  {| Binding := Binding;
     VersionId := uVersionId u;
     Visibility := uVisibility u;
     IsUsedInRegularObj := uIsUsedInRegularObj u;
     ExportDynamic := uExportDynamic u;
     CanInline := uCanInline u;
     Traced := uTraced u;
     InVersionScript := uInVersionScript u;
     File := File;
     DynsymIndex := 0;
     GotIndex := to_uint32 (-1);
     GotPltIndex := to_uint32 (-1);
     PltIndex := to_uint32 (-1);
     GlobalDynIndex := to_uint32 (-1);
     SymbolKind := K;
     NeedsPltAddr := false;
     IsInGlobalMipsGot := false;
     Is32BitMipsGot := false;
     IsInIplt := false;
     IsInIgot := false;
     IsPreemptible := false;
     Used := negb (GcSections Config);
     Type_ := Type';
     StOther := StOther;
     Name := Name |}.

(* [Defined::Defined]. *)
Definition Defined_ctor (File : option InputFile) (Name : string)
    (Binding StOther Type' : uint8_t) (Value Size : uint64_t)
    (Section : option SectionBase) (u : Uninitialized) : SymbolUnion :=
  {| base := Symbol_ctor DefinedKind File Name Binding StOther Type' u;
     members := DefinedMembers Value Size Section |}.

(* [Undefined::Undefined]. *)
Definition Undefined_ctor (File : option InputFile) (Name : string)
    (Binding StOther Type' : uint8_t) (u : Uninitialized) : SymbolUnion :=
  {| base := Symbol_ctor UndefinedKind File Name Binding StOther Type' u;
     members := UndefinedMembers |}.

(* [SharedSymbol::SharedSymbol]: the initializer list, then the body. *)
Definition SharedSymbol_ctor (File : InputFile) (Name : string)
    (Binding StOther Type' : uint8_t) (Value Size : uint64_t)
    (Alignment VerdefIndex : uint32_t) (u : Uninitialized) : SymbolUnion :=
  let this := Symbol_ctor SharedKind (Some File) Name Binding StOther Type' u in
  let this :=
    if Type_ this =? ELF.STT_GNU_IFUNC
    then set_Type_ ELF.STT_FUNC this
    else this in
  {| base := this;
     members := SharedSymbolMembers None Value Size VerdefIndex Alignment |}.

(* [Lazy::Lazy]: the base sub-object of both lazy classes. *)
Definition Lazy_ctor (K : Kind) (File : InputFile) (Name : string)
    (Type' : uint8_t) (u : Uninitialized) : Symbol :=
  Symbol_ctor K (Some File) Name ELF.STB_GLOBAL ELF.STV_DEFAULT Type' u.

(* [LazyArchive::LazyArchive]. *)
Definition LazyArchive_ctor (File : InputFile) (S : ArchiveSymbol)
    (Type' : uint8_t) (u : Uninitialized) : SymbolUnion :=
  {| base := Lazy_ctor LazyArchiveKind File (ArchiveSymbol_getName S) Type' u;
     members := LazyArchiveMembers S |}.

(* [LazyObject::LazyObject]. *)
Definition LazyObject_ctor (File : InputFile) (Name : string)
    (Type' : uint8_t) (u : Uninitialized) : SymbolUnion :=
  {| base := Lazy_ctor LazyObjectKind File Name Type' u;
     members := LazyObjectMembers |}.

(* [new (S) T(std::forward<ArgT>(Arg)...)]. *)
Definition construct (Arg : CtorArgs) (u : Uninitialized) : SymbolUnion :=
  match Arg with
  | NewDefined File Name Binding StOther Type' Value Size Section =>
      Defined_ctor File Name Binding StOther Type' Value Size Section u
  | NewUndefined File Name Binding StOther Type' =>
      Undefined_ctor File Name Binding StOther Type' u
  | NewSharedSymbol File Name Binding StOther Type' Value Size Alignment VerdefIndex =>
      SharedSymbol_ctor File Name Binding StOther Type' Value Size Alignment VerdefIndex u
  | NewLazyArchive File Sym Type' => LazyArchive_ctor File Sym Type' u
  | NewLazyObject File Name Type' => LazyObject_ctor File Name Type' u
  end.

(* [u] is what the storage at [S] holds in the members the constructor of
   [T] leaves alone. *)
Definition replaceSymbol (S : SymbolUnion) (Arg : CtorArgs) (u : Uninitialized)
    : Traceable SymbolUnion :=
  let Sym := base S in
  let S := construct Arg u in
  let S := assign (set_VersionId (VersionId Sym)) S in
  let S := assign (set_Visibility (Visibility Sym)) S in
  let S := assign (set_IsUsedInRegularObj (IsUsedInRegularObj Sym)) S in
  let S := assign (set_ExportDynamic (ExportDynamic Sym)) S in
  let S := assign (set_CanInline (CanInline Sym)) S in
  let S := assign (set_Traced (Traced Sym)) S in
  let S := assign (set_InVersionScript (InVersionScript Sym)) S in
  when (Traced (base S)) (printTraceSymbol S) ;;;
  ret S.

(* A slot's history: transitions applied one after the other. *)
Fixpoint replaceSymbols (S : SymbolUnion) (steps : list (CtorArgs * Uninitialized))
    : Traceable SymbolUnion :=
  match steps with
  | [] => ret S
  | (Arg, u) :: rest =>
      S' <- replaceSymbol S Arg u ;;
      replaceSymbols S' rest
  end.

End WithConfig.

(** ** Lazy::fetch *)

(** Modelled from the spec: [Lazy::fetch], [LazyArchive::fetch] and
    [LazyObject::fetch] are declared in the header and defined outside it,
    with the file classes they hand off.  The spec gives a lazy slot two
    states, not yet fetched and fetched; [fetch] returns its payload from the
    first state only and moves the slot to the second, while the variant in
    the slot stays as it is. *)
Inductive FetchState :=
| NotYetFetched
| AlreadyFetched.

(** Modelled from the spec: a slot holding a variant, with the mark [fetch]
    leaves on it. *)
Record LazySlot := mkLazySlot {
  occupant : SymbolUnion;
  fetch_state : FetchState
}.

(** Modelled from the spec: a variant just constructed in a slot has handed
    off nothing yet. *)
Definition unfetched (S : SymbolUnion) : LazySlot :=
  {| occupant := S; fetch_state := NotYetFetched |}.

Section Fetch.

(* Extraction of the archive member that the descriptor [Sym] points at, as an
   input file of its own. *)
Variable getMember : InputFile -> ArchiveSymbol -> InputFile.

(** Modelled from the spec: [LazyArchive::fetch] extracts the archive member
    associated with the stored symbol descriptor, once. *)
Definition LazyArchive_fetch (File : InputFile) (Sym : ArchiveSymbol)
    (st : FetchState) : option InputFile * FetchState :=
  match st with
  | NotYetFetched => (Some (getMember File Sym), AlreadyFetched)
  | AlreadyFetched => (None, AlreadyFetched)
  end.

(** Modelled from the spec: [LazyObject::fetch] returns the object file
    directly, once. *)
Definition LazyObject_fetch (File : InputFile) (st : FetchState)
    : option InputFile * FetchState :=
  match st with
  | NotYetFetched => (Some File, AlreadyFetched)
  | AlreadyFetched => (None, AlreadyFetched)
  end.

(** Modelled from the spec: [Lazy::fetch] on the object in the slot.  The
    outer [option] is [None] when that object is not a [Lazy] with a file,
    which the static type of [this] rules out; the inner one is the returned
    [InputFile *]. *)
Definition Lazy_fetch (sl : LazySlot) : option (option InputFile * LazySlot) :=
  let this := occupant sl in
  match members this, File (base this) with
  | LazyArchiveMembers Sym, Some F =>
      let (r, st) := LazyArchive_fetch F Sym (fetch_state sl) in
      Some (r, {| occupant := this; fetch_state := st |})
  | LazyObjectMembers, Some F =>
      let (r, st) := LazyObject_fetch F (fetch_state sl) in
      Some (r, {| occupant := this; fetch_state := st |})
  | _, _ => None
  end.

(* [n] calls in a row on one slot, with the results in call order. *)
Fixpoint fetch_repeatedly (n : nat) (sl : LazySlot)
    : option (list (option InputFile) * LazySlot) :=
  match n with
  | O => Some ([], sl)
  | S n' =>
      match Lazy_fetch sl with
      | None => None
      | Some (r, sl') =>
          match fetch_repeatedly n' sl' with
          | None => None
          | Some (rs, sl'') => Some (r :: rs, sl'')
          end
      end
  end.

End Fetch.

(* The object is of class [LazyArchive] or [LazyObject], as their constructors
   leave it: the kind tag agrees with the class and the file is not null. *)
Definition holds_Lazy (S : SymbolUnion) : bool :=
  match members S, File (base S) with
  | LazyArchiveMembers _, Some _ => Kind_eqb (SymbolKind (base S)) LazyArchiveKind
  | LazyObjectMembers, Some _ => Kind_eqb (SymbolKind (base S)) LazyObjectKind
  | _, _ => false
  end.

(** ** classof

    The static member [classof] of each class, which [isa], [cast] and
    [dyn_cast] consult. *)

Definition Defined_classof (S : Symbol) : bool := isDefined S.
Definition Undefined_classof (S : Symbol) : bool := Kind_eqb (kind S) UndefinedKind.
Definition SharedSymbol_classof (S : Symbol) : bool := Kind_eqb (kind S) SharedKind.
Definition Lazy_classof (S : Symbol) : bool := isLazy S.
Definition LazyArchive_classof (S : Symbol) : bool := Kind_eqb (kind S) LazyArchiveKind.
Definition LazyObject_classof (S : Symbol) : bool := Kind_eqb (kind S) LazyObjectKind.

(* [classof] of the class whose constructor passes the tag [K]. *)
Definition classof (K : Kind) : Symbol -> bool :=
  match K with
  | DefinedKind => Defined_classof
  | SharedKind => SharedSymbol_classof
  | UndefinedKind => Undefined_classof
  | LazyArchiveKind => LazyArchive_classof
  | LazyObjectKind => LazyObject_classof
  end.

(* The tag of the class that declares the given members. *)
Definition Members_kind (m : Members) : Kind :=
  match m with
  | DefinedMembers _ _ _ => DefinedKind
  | UndefinedMembers => UndefinedKind
  | SharedSymbolMembers _ _ _ _ _ => SharedKind
  | LazyArchiveMembers _ => LazyArchiveKind
  | LazyObjectMembers => LazyObjectKind
  end.

(* What the constructor of [T] passes on to [Symbol::Symbol] as file,
   [st_other] and type; [SharedSymbol]'s body is applied to the type. *)
Definition target_File (Arg : CtorArgs) : option InputFile :=
  match Arg with
  | NewDefined File _ _ _ _ _ _ _ => File
  | NewUndefined File _ _ _ _ => File
  | NewSharedSymbol File _ _ _ _ _ _ _ _ => Some File
  | NewLazyArchive File _ _ => Some File
  | NewLazyObject File _ _ => Some File
  end.

Definition target_StOther (Arg : CtorArgs) : uint8_t :=
  match Arg with
  | NewDefined _ _ _ StOther _ _ _ _ => StOther
  | NewUndefined _ _ _ StOther _ => StOther
  | NewSharedSymbol _ _ _ StOther _ _ _ _ _ => StOther
  | NewLazyArchive _ _ _ => ELF.STV_DEFAULT
  | NewLazyObject _ _ _ => ELF.STV_DEFAULT
  end.

Definition target_Type (Arg : CtorArgs) : uint8_t :=
  match Arg with
  | NewDefined _ _ _ _ Type' _ _ _ => Type'
  | NewUndefined _ _ _ _ Type' => Type'
  | NewSharedSymbol _ _ _ _ Type' _ _ _ _ =>
      if Type' =? ELF.STT_GNU_IFUNC then ELF.STT_FUNC else Type'
  | NewLazyArchive _ _ Type' => Type'
  | NewLazyObject _ _ Type' => Type'
  end.

(* How many of the given tests hold. *)
Definition holding (tests : list bool) : nat :=
  List.length (filter (fun b => b) tests).

(** ** Definitions used in the statements *)

(* The seven members of [Uninitialized], read off a symbol. *)
Definition snapshot (s : Symbol) : Uninitialized :=
  {| uVersionId := VersionId s;
     uVisibility := Visibility s;
     uIsUsedInRegularObj := IsUsedInRegularObj s;
     uExportDynamic := ExportDynamic s;
     uCanInline := CanInline s;
     uTraced := Traced s;
     uInVersionScript := InVersionScript s |}.

(* The seven assignments that follow the placement new, as one step. *)
Definition restore (Sym : Symbol) (S : SymbolUnion) : SymbolUnion :=
  assign (set_InVersionScript (InVersionScript Sym))
    (assign (set_Traced (Traced Sym))
       (assign (set_CanInline (CanInline Sym))
          (assign (set_ExportDynamic (ExportDynamic Sym))
             (assign (set_IsUsedInRegularObj (IsUsedInRegularObj Sym))
                (assign (set_Visibility (Visibility Sym))
                   (assign (set_VersionId (VersionId Sym)) S)))))).

(* The values of an unsigned type of the given width. *)
Definition fits (bits z : Z) : Prop := 0 <= z < 2 ^ bits.

(* Every integer member holds a value of its C++ type. *)
Definition Symbol_in_range (s : Symbol) : Prop :=
  fits 8 (Binding s) /\ fits 16 (VersionId s) /\ fits 2 (Visibility s) /\
  fits 32 (DynsymIndex s) /\ fits 32 (GotIndex s) /\ fits 32 (GotPltIndex s) /\
  fits 32 (PltIndex s) /\ fits 32 (GlobalDynIndex s) /\
  fits 8 (Type_ s) /\ fits 8 (StOther s).

(* The [uint8_t] arguments of a constructor call are values of that type. *)
Definition CtorArgs_in_range (Arg : CtorArgs) : Prop :=
  match Arg with
  | NewDefined _ _ Binding StOther Type' _ _ _
  | NewUndefined _ _ Binding StOther Type'
  | NewSharedSymbol _ _ Binding StOther Type' _ _ _ _ =>
      fits 8 Binding /\ fits 8 StOther /\ fits 8 Type'
  | NewLazyArchive _ _ Type'
  | NewLazyObject _ _ Type' => fits 8 Type'
  end.

(* Concrete inputs. *)

Definition cfg0 : Configuration := {| GcSections := false |}.

Definition storage0 : Uninitialized :=
  {| uVersionId := 0;
     uVisibility := 0;
     uIsUsedInRegularObj := false;
     uExportDynamic := false;
     uCanInline := false;
     uTraced := false;
     uInVersionScript := false |}.

(* An undefined weak reference to [foo]. *)
Definition weak_undefined_foo : SymbolUnion :=
  Undefined_ctor cfg0 None "foo" ELF.STB_WEAK ELF.STV_DEFAULT 0 storage0.

(* [foo] as found in the object file 1 between --start-lib and --end-lib. *)
Definition lazy_object_foo : CtorArgs := NewLazyObject 1%N "foo" UnknownType.

(* [foo] as defined by the shared library 2. *)
Definition shared_foo : CtorArgs :=
  NewSharedSymbol 2%N "foo" ELF.STB_GLOBAL ELF.STV_DEFAULT ELF.STT_FUNC 4096 16 8 0.

(* A definition under another name. *)
Definition defined_bar : CtorArgs :=
  NewDefined (Some 3%N) "bar" ELF.STB_GLOBAL ELF.STV_DEFAULT ELF.STT_OBJECT 0 8 None.

(* [foo] as defined by the object file 1. *)
Definition defined_foo : CtorArgs :=
  NewDefined (Some 1%N) "foo" ELF.STB_GLOBAL ELF.STV_DEFAULT ELF.STT_FUNC 0 8 (Some 7%N).

(* An archive member: the file at the descriptor's index inside the archive. *)
Definition member0 (File : InputFile) (Sym : ArchiveSymbol) : InputFile :=
  (File * 1000 + Z.to_N (SymbolIndex Sym))%N.

(** * Properties *)

(** ** Predicates of [Symbol] *)

Lemma Kind_eqb_eq (a b : Kind) : Kind_eqb a b = true <-> a = b.
Proof. destruct a, b; simpl; split; intro H; congruence. Qed.

Lemma minus1U_all_ones : minus1U = Z.ones 32.
Proof. reflexivity. Qed.

(** C3.  [isUndefWeak] is true exactly when the binding is [STB_WEAK] and the
    kind is [Undefined], [LazyArchive] or [LazyObject]; in particular it is
    false on a [Defined] or [SharedSymbol], weak or not. *)
Theorem isUndefWeak_spec (s : Symbol) :
  (isUndefWeak s = true <->
     Binding s = ELF.STB_WEAK /\
     (kind s = UndefinedKind \/ kind s = LazyArchiveKind \/ kind s = LazyObjectKind))
  /\ (isUndefWeak s = false <->
     Binding s <> ELF.STB_WEAK \/ kind s = DefinedKind \/ kind s = SharedKind).
Proof.
  unfold isUndefWeak, isWeak, isUndefined, isLazy, kind.
  destruct (Z.eqb_spec (Binding s) ELF.STB_WEAK) as [Hb | Hb];
    destruct (SymbolKind s); simpl; split; split;
    intuition congruence.
Qed.

(** C6.  [isInGot] is false exactly when [GotIndex] is the all-ones value, and
    [isInPlt] is false exactly when [PltIndex] is; both are true on every other
    index, 0 included. *)
Theorem isInGot_isInPlt_spec (s : Symbol) :
  (isInGot s = false <-> GotIndex s = Z.ones 32) /\
  (isInPlt s = false <-> PltIndex s = Z.ones 32) /\
  (isInGot s = true <-> GotIndex s <> Z.ones 32) /\
  (isInPlt s = true <-> PltIndex s <> Z.ones 32) /\
  (GotIndex s = 0 -> isInGot s = true) /\
  (PltIndex s = 0 -> isInPlt s = true).
Proof.
  unfold isInGot, isInPlt. rewrite minus1U_all_ones.
  destruct (Z.eqb_spec (GotIndex s) (Z.ones 32)) as [Hg | Hg];
    destruct (Z.eqb_spec (PltIndex s) (Z.ones 32)) as [Hp | Hp]; simpl;
    repeat split; intros; try congruence; try discriminate;
    try (exfalso; rewrite Hg in *; discriminate);
    try (exfalso; rewrite Hp in *; discriminate).
Qed.

(** ** Construction *)

Section Construction.

Variable Config : Configuration.

Lemma SharedSymbol_ctor_base File Name Binding StOther Type' Value Size
    Alignment VerdefIndex u :
  base (SharedSymbol_ctor Config File Name Binding StOther Type' Value Size
          Alignment VerdefIndex u) =
  Symbol_ctor Config SharedKind (Some File) Name Binding StOther
    (if Type' =? ELF.STT_GNU_IFUNC then ELF.STT_FUNC else Type') u.
Proof.
  unfold SharedSymbol_ctor. cbn [base Symbol_ctor Type_].
  destruct (Type' =? ELF.STT_GNU_IFUNC); reflexivity.
Qed.

Lemma construct_kind (Arg : CtorArgs) (u : Uninitialized) :
  kind (base (construct Config Arg u)) = target_kind Arg.
Proof.
  destruct Arg; try reflexivity.
  cbn [construct]. rewrite SharedSymbol_ctor_base. reflexivity.
Qed.

Lemma construct_Name (Arg : CtorArgs) (u : Uninitialized) :
  getName (base (construct Config Arg u)) = target_name Arg.
Proof.
  destruct Arg; try reflexivity.
  cbn [construct]. rewrite SharedSymbol_ctor_base. reflexivity.
Qed.

Lemma construct_Binding (Arg : CtorArgs) (u : Uninitialized) :
  Binding (base (construct Config Arg u)) = target_binding Arg.
Proof.
  destruct Arg; try reflexivity.
  cbn [construct]. rewrite SharedSymbol_ctor_base. reflexivity.
Qed.

(* The storage content reaches the seven members and nothing else. *)
Lemma construct_uninitialized_only (Arg : CtorArgs) (u1 u2 : Uninitialized) :
  snapshot (base (construct Config Arg u1)) = snapshot (base (construct Config Arg u2)) ->
  construct Config Arg u1 = construct Config Arg u2.
Proof.
  destruct u1, u2, Arg; cbn [construct];
    unfold Defined_ctor, Undefined_ctor, LazyArchive_ctor, LazyObject_ctor, Lazy_ctor;
    rewrite ?SharedSymbol_ctor_base;
    try (unfold SharedSymbol_ctor; cbn [Symbol_ctor Type_];
         destruct (Type' =? ELF.STT_GNU_IFUNC));
    cbn; intro H; injection H as -> -> -> -> -> -> ->; reflexivity.
Qed.

(** C4, as the code has it.  A newly constructed symbol of any of the five
    classes has [GotIndex], [GotPltIndex], [PltIndex] and [GlobalDynIndex]
    equal to the all-ones value, and [DynsymIndex] equal to 0. *)
Theorem construct_slot_indices (Arg : CtorArgs) (u : Uninitialized) :
  let s := base (construct Config Arg u) in
  DynsymIndex s = 0 /\
  GotIndex s = Z.ones 32 /\
  GotPltIndex s = Z.ones 32 /\
  PltIndex s = Z.ones 32 /\
  GlobalDynIndex s = Z.ones 32.
Proof.
  destruct Arg; cbn [construct]; try (repeat split; reflexivity).
  cbv zeta. rewrite SharedSymbol_ctor_base. repeat split; reflexivity.
Qed.

(** C5.  A [SharedSymbol] constructed with type [STT_GNU_IFUNC] has type
    [STT_FUNC], so [isFunc] holds and [isGnuIFunc] does not; any other type is
    stored as given. *)
Theorem SharedSymbol_ctor_normalizes_ifunc File Name Binding StOther Type'
    Value Size Alignment VerdefIndex u :
  let s := base (SharedSymbol_ctor Config File Name Binding StOther Type'
                   Value Size Alignment VerdefIndex u) in
  (Type' = ELF.STT_GNU_IFUNC ->
     Type_ s = ELF.STT_FUNC /\ isFunc s = true /\ isGnuIFunc s = false) /\
  (Type' <> ELF.STT_GNU_IFUNC -> Type_ s = Type').
Proof.
  cbv zeta. rewrite SharedSymbol_ctor_base.
  unfold isFunc, isGnuIFunc. cbn [Symbol_ctor Type_].
  destruct (Z.eqb_spec Type' ELF.STT_GNU_IFUNC) as [E | E]; split; intro H;
    try contradiction; repeat split; reflexivity.
Qed.

(** C10.  No constructor gives a value to [VersionId], [Visibility],
    [IsUsedInRegularObj], [ExportDynamic], [CanInline], [Traced] or
    [InVersionScript]: in a newly constructed symbol of any class they hold
    what the storage held, whatever the constructor's arguments. *)
Theorem construct_leaves_uninitialized (Arg : CtorArgs) (u : Uninitialized) :
  let s := base (construct Config Arg u) in
  VersionId s = uVersionId u /\
  Visibility s = uVisibility u /\
  IsUsedInRegularObj s = uIsUsedInRegularObj u /\
  ExportDynamic s = uExportDynamic u /\
  CanInline s = uCanInline u /\
  Traced s = uTraced u /\
  InVersionScript s = uInVersionScript u.
Proof.
  destruct Arg; cbn [construct]; try (repeat split; reflexivity).
  cbv zeta. rewrite SharedSymbol_ctor_base. repeat split; reflexivity.
Qed.

End Construction.

(** ** replaceSymbol *)

Section Replace.

Variable Config : Configuration.

Lemma replaceSymbol_unfold S Arg u log :
  replaceSymbol Config S Arg u log =
  let S' := restore (base S) (construct Config Arg u) in
  (S', if Traced (base S) then log ++ [S'] else log).
Proof.
  unfold replaceSymbol, restore, bind, when, printTraceSymbol, ret.
  cbn [assign base set_InVersionScript Traced].
  destruct (Traced (base S)); reflexivity.
Qed.

Lemma restore_snapshot Sym S : snapshot (base (restore Sym S)) = snapshot Sym.
Proof. reflexivity. Qed.

Lemma restore_Name Sym S : getName (base (restore Sym S)) = getName (base S).
Proof. reflexivity. Qed.

Lemma restore_Binding Sym S : Binding (base (restore Sym S)) = Binding (base S).
Proof. reflexivity. Qed.

Lemma restore_kind Sym S : kind (base (restore Sym S)) = kind (base S).
Proof. reflexivity. Qed.

(* What [replaceSymbol] leaves in the slot. *)
Lemma replaceSymbol_Name S Arg u log :
  getName (base (fst (replaceSymbol Config S Arg u log))) = target_name Arg.
Proof.
  rewrite replaceSymbol_unfold. cbn [fst].
  rewrite restore_Name. apply construct_Name.
Qed.

Lemma replaceSymbol_Binding S Arg u log :
  Binding (base (fst (replaceSymbol Config S Arg u log))) = target_binding Arg.
Proof.
  rewrite replaceSymbol_unfold. cbn [fst].
  rewrite restore_Binding. apply construct_Binding.
Qed.

Lemma replaceSymbol_kind S Arg u log :
  kind (base (fst (replaceSymbol Config S Arg u log))) = target_kind Arg.
Proof.
  rewrite replaceSymbol_unfold. cbn [fst].
  rewrite restore_kind. apply construct_kind.
Qed.

Ltac fits_closed :=
  unfold fits; vm_compute; split; [discriminate | reflexivity].

Ltac in_range_leaf :=
  match goal with
  | H : fits ?w _ |- fits ?w _ => exact H
  end.

(* The model stays inside the machine types: with constructor arguments of
   type [uint8_t], a slot whose integers are in range stays so, whatever the
   storage held. *)
Lemma replaceSymbol_in_range S Arg u log :
  Symbol_in_range (base S) ->
  CtorArgs_in_range Arg ->
  Symbol_in_range (base (fst (replaceSymbol Config S Arg u log))).
Proof.
  intros HS HA. rewrite replaceSymbol_unfold. cbn [fst].
  destruct HS as (_ & Hver & Hvis & _).
  assert (Hidx : fits 32 (to_uint32 (-1))) by fits_closed.
  assert (H0 : fits 32 0) by fits_closed.
  assert (Hg : fits 8 ELF.STB_GLOBAL) by fits_closed.
  assert (Hd : fits 8 ELF.STV_DEFAULT) by fits_closed.
  assert (Hf : fits 8 ELF.STT_FUNC) by fits_closed.
  destruct Arg; cbn [CtorArgs_in_range] in HA;
    try destruct HA as (HB & HO & HT);
    unfold Symbol_in_range, restore; cbn [construct];
    try (unfold SharedSymbol_ctor; cbn [Symbol_ctor Type_];
         destruct (Type' =? ELF.STT_GNU_IFUNC));
    do 9 (split; [ in_range_leaf |]); in_range_leaf.
Qed.

(** C1.  Whatever the slot held and whatever is constructed over it,
    [VersionId], [Visibility], [IsUsedInRegularObj], [ExportDynamic],
    [CanInline], [Traced] and [InVersionScript] are the same after
    [replaceSymbol] as before, whatever the constructor left in them. *)
Theorem replaceSymbol_preserves S Arg u log :
  let before := base S in
  let after := base (fst (replaceSymbol Config S Arg u log)) in
  VersionId after = VersionId before /\
  Visibility after = Visibility before /\
  IsUsedInRegularObj after = IsUsedInRegularObj before /\
  ExportDynamic after = ExportDynamic before /\
  CanInline after = CanInline before /\
  Traced after = Traced before /\
  InVersionScript after = InVersionScript before.
Proof.
  cbv zeta. rewrite replaceSymbol_unfold. cbn [fst].
  repeat split; reflexivity.
Qed.

(** C7.  [replaceSymbol] calls [printTraceSymbol] once, on the symbol it
    leaves in the slot (the new variant with the preserved members restored),
    when the slot's [Traced] was set before the call, and not at all when it
    was not. *)
Theorem replaceSymbol_trace S Arg u log :
  let S' := fst (replaceSymbol Config S Arg u log) in
  let log' := snd (replaceSymbol Config S Arg u log) in
  log' = log ++ (if Traced (base S) then [S'] else []) /\
  kind (base S') = target_kind Arg /\
  snapshot (base S') = snapshot (base S).
Proof.
  cbv zeta. split; [| split].
  - rewrite replaceSymbol_unfold. cbn [fst snd].
    destruct (Traced (base S)); [reflexivity | now rewrite app_nil_r].
  - apply replaceSymbol_kind.
  - rewrite replaceSymbol_unfold. cbn [fst]. apply restore_snapshot.
Qed.

Lemma replaceSymbols_cons S Arg u rest log :
  replaceSymbols Config S ((Arg, u) :: rest) log =
  replaceSymbols Config (fst (replaceSymbol Config S Arg u log)) rest
    (snd (replaceSymbol Config S Arg u log)).
Proof.
  cbn [replaceSymbols]. unfold bind.
  destruct (replaceSymbol Config S Arg u log); reflexivity.
Qed.

(** C9, as the code has it.  [replaceSymbol] leaves in the slot the name the
    new variant's constructor was given; so over any sequence of transitions
    that each pass the slot's name, [getName] stays what it was. *)
Theorem replaceSymbols_keeps_Name S steps log :
  Forall (fun step => target_name (fst step) = getName (base S)) steps ->
  getName (base (fst (replaceSymbols Config S steps log))) = getName (base S).
Proof.
  intro H. revert S log H.
  induction steps as [| [Arg u] rest IH]; intros S log H.
  - reflexivity.
  - rewrite replaceSymbols_cons.
    inversion H as [| ? ? Hhead Htail]; subst. cbn [fst] in Hhead.
    rewrite IH.
    + rewrite replaceSymbol_Name. exact Hhead.
    + rewrite replaceSymbol_Name, Hhead. exact Htail.
Qed.

End Replace.

(** ** Lazy::fetch *)

Section FetchProperties.

Variable Config : Configuration.
Variable getMember : InputFile -> ArchiveSymbol -> InputFile.

(* The lazy constructors, and [replaceSymbol] with them, leave a [Lazy]. *)
Lemma construct_holds_Lazy Arg u :
  holds_Lazy (construct Config Arg u) = isLazy (base (construct Config Arg u)).
Proof.
  destruct Arg; try reflexivity.
  unfold holds_Lazy, isLazy. cbn [construct].
  rewrite SharedSymbol_ctor_base. reflexivity.
Qed.

Lemma replaceSymbol_holds_Lazy S Arg u log :
  target_kind Arg = LazyArchiveKind \/ target_kind Arg = LazyObjectKind ->
  holds_Lazy (fst (replaceSymbol Config S Arg u log)) = true.
Proof.
  rewrite replaceSymbol_unfold. cbn [fst].
  destruct Arg; cbn [target_kind]; intros [H | H]; try discriminate H; reflexivity.
Qed.

Lemma Lazy_fetch_occupant sl r sl' :
  Lazy_fetch getMember sl = Some (r, sl') -> occupant sl' = occupant sl.
Proof.
  unfold Lazy_fetch.
  destruct (members (occupant sl)); try discriminate;
    destruct (File (base (occupant sl))); try discriminate;
    destruct (fetch_state sl); cbn; intro H; injection H as _ <-; reflexivity.
Qed.

(* The first call on a slot that has handed off nothing. *)
Lemma Lazy_fetch_first sl :
  holds_Lazy (occupant sl) = true ->
  fetch_state sl = NotYetFetched ->
  exists f, Lazy_fetch getMember sl =
            Some (Some f, {| occupant := occupant sl; fetch_state := AlreadyFetched |}).
Proof.
  unfold holds_Lazy, Lazy_fetch. intros HL Hst. rewrite Hst.
  destruct (members (occupant sl)); try discriminate HL;
    destruct (File (base (occupant sl))); try discriminate HL;
    eexists; reflexivity.
Qed.

(* Any call after it. *)
Lemma Lazy_fetch_again sl :
  holds_Lazy (occupant sl) = true ->
  fetch_state sl = AlreadyFetched ->
  Lazy_fetch getMember sl = Some (None, sl).
Proof.
  unfold holds_Lazy, Lazy_fetch. intros HL Hst.
  destruct sl as [S st]; cbn [occupant fetch_state] in *; subst st.
  destruct (members S); try discriminate HL;
    destruct (File (base S)); try discriminate HL; reflexivity.
Qed.

Lemma fetch_repeatedly_again n sl :
  holds_Lazy (occupant sl) = true ->
  fetch_state sl = AlreadyFetched ->
  fetch_repeatedly getMember n sl = Some (repeat None n, sl).
Proof.
  intros HL Hst. induction n as [| n IH].
  - reflexivity.
  - cbn [fetch_repeatedly repeat].
    rewrite (Lazy_fetch_again sl HL Hst), IH. reflexivity.
Qed.

(** C8.  On a slot holding a [LazyArchive] or a [LazyObject] that has handed
    off nothing, any number of calls to [fetch] in a row return an input file
    on the first call and null on every later one, and leave the variant in
    place. *)
Theorem fetch_one_shot sl n :
  holds_Lazy (occupant sl) = true ->
  fetch_state sl = NotYetFetched ->
  exists f sl',
    fetch_repeatedly getMember (S n) sl = Some (Some f :: repeat None n, sl') /\
    occupant sl' = occupant sl.
Proof.
  intros HL Hst.
  destruct (Lazy_fetch_first sl HL Hst) as [f Hf].
  exists f, {| occupant := occupant sl; fetch_state := AlreadyFetched |}.
  split; [| reflexivity].
  cbn [fetch_repeatedly]. rewrite Hf.
  rewrite fetch_repeatedly_again by (cbn; auto).
  reflexivity.
Qed.

End FetchProperties.

(** ** Concrete runs *)

(** C2.  Run on an undefined weak symbol, [replaceSymbol] with a [LazyObject]
    or with a global [SharedSymbol] leaves the binding [STB_GLOBAL], the one
    the new variant's constructor passes to [Symbol::Symbol]: the symbol is no
    longer weak. *)
Theorem replaceSymbol_overwrites_Binding :
  let S := weak_undefined_foo in
  let lazy := fst (replaceSymbol cfg0 S lazy_object_foo storage0 []) in
  let shared := fst (replaceSymbol cfg0 S shared_foo storage0 []) in
  Binding (base S) = ELF.STB_WEAK /\ isUndefWeak (base S) = true /\
  Binding (base lazy) = ELF.STB_GLOBAL /\ isUndefWeak (base lazy) = false /\
  Binding (base shared) = ELF.STB_GLOBAL /\ isWeak (base shared) = false.
Proof. cbv zeta. repeat split; reflexivity. Qed.

(** C4, as stated, fails: in a newly constructed [Undefined] the five slot
    indices are not all equal to the all-ones value. *)
Lemma construct_DynsymIndex_not_all_ones :
  let s := base weak_undefined_foo in
  ~ (DynsymIndex s = Z.ones 32 /\
     GotIndex s = Z.ones 32 /\
     GotPltIndex s = Z.ones 32 /\
     PltIndex s = Z.ones 32 /\
     GlobalDynIndex s = Z.ones 32).
Proof. cbv zeta. intros [H _]. discriminate H. Qed.

(** C9, as stated, fails: [replaceSymbol] with a [Defined] named [bar] on the
    slot of [foo] changes what [getName] returns. *)
Lemma replaceSymbol_changes_Name :
  let S := weak_undefined_foo in
  let S' := fst (replaceSymbol cfg0 S defined_bar storage0 []) in
  getName (base S) = "foo"%string /\
  getName (base S') = "bar"%string /\
  getName (base S') <> getName (base S).
Proof. cbv zeta. repeat split. discriminate. Qed.

(** C9: a history of two transitions that pass the slot's name, from
    undefined to lazy to defined. *)
Lemma replaceSymbols_keeps_Name_witness :
  let steps := [(lazy_object_foo, storage0); (defined_foo, storage0)] in
  Forall (fun step => target_name (fst step) = getName (base weak_undefined_foo)) steps /\
  getName (base (fst (replaceSymbols cfg0 weak_undefined_foo steps []))) =
  getName (base weak_undefined_foo).
Proof.
  cbv zeta. split.
  - repeat constructor.
  - apply (replaceSymbols_keeps_Name cfg0 weak_undefined_foo
             [(lazy_object_foo, storage0); (defined_foo, storage0)] []).
    repeat constructor.
Defined.

(** C8: three calls in a row on a [LazyObject] just put in the slot. *)
Lemma fetch_one_shot_witness :
  let sl := unfetched (fst (replaceSymbol cfg0 weak_undefined_foo lazy_object_foo storage0 [])) in
  holds_Lazy (occupant sl) = true /\
  fetch_state sl = NotYetFetched /\
  exists f sl',
    fetch_repeatedly member0 3 sl = Some ([Some f; None; None], sl') /\
    occupant sl' = occupant sl.
Proof.
  cbv zeta. split; [reflexivity | split; [reflexivity |]].
  apply (fetch_one_shot member0
           (unfetched (fst (replaceSymbol cfg0 weak_undefined_foo lazy_object_foo storage0 [])))
           2); reflexivity.
Defined.

(** * Further properties of the header *)

(** ** Kind and type tests *)

Lemma classof_Kind_eqb (K : Kind) (s : Symbol) :
  classof K s = Kind_eqb (kind s) K.
Proof. destruct K; reflexivity. Qed.

(** X1.  Of the [classof] tests of the five concrete classes exactly one
    holds on any symbol, the one of the class its tag names, and
    [Lazy::classof] holds exactly when one of its two subclasses' does. *)
Theorem classof_partition (s : Symbol) :
  holding [Defined_classof s; Undefined_classof s; SharedSymbol_classof s;
           LazyArchive_classof s; LazyObject_classof s] = 1%nat /\
  classof (kind s) s = true /\
  Lazy_classof s = LazyArchive_classof s || LazyObject_classof s /\
  Undefined_classof s = isUndefined s /\
  SharedSymbol_classof s = isShared s.
Proof.
  rewrite classof_Kind_eqb.
  unfold Defined_classof, Undefined_classof, SharedSymbol_classof,
    LazyArchive_classof, LazyObject_classof, Lazy_classof,
    isDefined, isUndefined, isShared, isLazy, kind.
  destruct (SymbolKind s); repeat split; reflexivity.
Qed.

(** X2.  The tests [isSection], [isTls], [isFunc], [isGnuIFunc], [isObject]
    and [isFile] exclude one another, and none of them holds on a symbol of
    type [UnknownType]. *)
Theorem type_tests_exclusive (s : Symbol) :
  (holding [isSection s; isTls s; isFunc s; isGnuIFunc s; isObject s; isFile s]
     <= 1)%nat /\
  (Type_ s = UnknownType ->
   holding [isSection s; isTls s; isFunc s; isGnuIFunc s; isObject s; isFile s]
     = 0%nat).
Proof.
  unfold isSection, isTls, isFunc, isGnuIFunc, isObject, isFile, UnknownType,
    ELF.STT_SECTION, ELF.STT_TLS, ELF.STT_FUNC, ELF.STT_GNU_IFUNC,
    ELF.STT_OBJECT, ELF.STT_FILE.
  split; [| intro H; rewrite H; reflexivity].
  destruct (Z.eqb_spec (Type_ s) 3); [subst; rewrite e; cbn; lia |].
  destruct (Z.eqb_spec (Type_ s) 6); [subst; rewrite e; cbn; lia |].
  destruct (Z.eqb_spec (Type_ s) 2); [subst; rewrite e; cbn; lia |].
  destruct (Z.eqb_spec (Type_ s) 10); [subst; rewrite e; cbn; lia |].
  destruct (Z.eqb_spec (Type_ s) 1); [subst; rewrite e; cbn; lia |].
  destruct (Z.eqb_spec (Type_ s) 4); cbn; lia.
Qed.

(** ** Construction and replacement, member by member *)

Section ReplaceMore.

Variable Config : Configuration.

(* The base sub-object any constructor leaves. *)
Lemma construct_base (Arg : CtorArgs) (u : Uninitialized) :
  base (construct Config Arg u) =
  Symbol_ctor Config (target_kind Arg) (target_File Arg) (target_name Arg)
    (target_binding Arg) (target_StOther Arg) (target_Type Arg) u.
Proof.
  destruct Arg; try reflexivity.
  cbn [construct]. apply SharedSymbol_ctor_base.
Qed.

Lemma construct_members (Arg : CtorArgs) (u1 u2 : Uninitialized) :
  members (construct Config Arg u1) = members (construct Config Arg u2).
Proof. destruct Arg; reflexivity. Qed.

Lemma restore_members_eq (Sym : Symbol) (S : SymbolUnion) :
  members (restore Sym S) = members S.
Proof. reflexivity. Qed.

(* Restoring the seven members of [Sym] over a new object gives the object
   the constructor would have left on storage that held them. *)
Lemma restore_construct (Sym : Symbol) (Arg : CtorArgs) (u : Uninitialized) :
  restore Sym (construct Config Arg u) = construct Config Arg (snapshot Sym).
Proof.
  assert (Hb : base (restore Sym (construct Config Arg u)) =
               base (construct Config Arg (snapshot Sym))).
  { unfold restore. cbn [assign base]. rewrite !construct_base. reflexivity. }
  assert (Hm : members (restore Sym (construct Config Arg u)) =
               members (construct Config Arg (snapshot Sym))).
  { rewrite restore_members_eq. apply construct_members. }
  destruct (restore Sym (construct Config Arg u)) as [b m].
  destruct (construct Config Arg (snapshot Sym)) as [b' m'].
  cbn [base members] in Hb, Hm. now subst.
Qed.

Lemma replaceSymbol_fst S Arg u log :
  fst (replaceSymbol Config S Arg u log) = construct Config Arg (snapshot (base S)).
Proof. rewrite replaceSymbol_unfold. cbn [fst]. apply restore_construct. Qed.

Lemma replaceSymbol_snd S Arg u log :
  snd (replaceSymbol Config S Arg u log) =
  log ++ (if Traced (base S) then [construct Config Arg (snapshot (base S))] else []).
Proof.
  rewrite replaceSymbol_unfold. cbn [snd]. rewrite restore_construct.
  destruct (Traced (base S)); [reflexivity | now rewrite app_nil_r].
Qed.

Lemma construct_snapshot (Arg : CtorArgs) (u : Uninitialized) :
  snapshot (base (construct Config Arg u)) = u.
Proof. rewrite construct_base. destruct u; reflexivity. Qed.

(** X3.  What [replaceSymbol] leaves in the slot is the object the
    constructor leaves on storage holding the previous occupant's seven
    preserved members; nothing else of the previous occupant, and nothing of
    what the storage held in members the constructor skips, reaches the result
    or the trace. *)
Theorem replaceSymbol_is_construct S Arg u log :
  fst (replaceSymbol Config S Arg u log) = construct Config Arg (snapshot (base S)) /\
  (forall u', replaceSymbol Config S Arg u' log = replaceSymbol Config S Arg u log) /\
  (forall S', snapshot (base S') = snapshot (base S) ->
     replaceSymbol Config S' Arg u log = replaceSymbol Config S Arg u log).
Proof.
  split; [apply replaceSymbol_fst |].
  split.
  - intro u'. apply injective_projections.
    + now rewrite !replaceSymbol_fst.
    + now rewrite !replaceSymbol_snd.
  - intros S' H. apply injective_projections.
    + now rewrite !replaceSymbol_fst, H.
    + rewrite !replaceSymbol_snd, H.
      replace (Traced (base S')) with (Traced (base S)); [reflexivity |].
      change (uTraced (snapshot (base S)) = uTraced (snapshot (base S'))).
      now rewrite H.
Qed.

(** X4.  After [replaceSymbol] the kind tag is the one of the class
    constructed and agrees with the members the slot holds, whatever the slot
    held before; so of the five [classof] tests exactly the one of that class
    holds. *)
Theorem replaceSymbol_classof S Arg u log (K : Kind) :
  let S' := fst (replaceSymbol Config S Arg u log) in
  kind (base S') = Members_kind (members S') /\
  (classof K (base S') = true <-> K = target_kind Arg).
Proof.
  cbv zeta. rewrite classof_Kind_eqb, replaceSymbol_fst, construct_kind. split.
  - destruct Arg; reflexivity.
  - rewrite Kind_eqb_eq. split; congruence.
Qed.

(** X5.  [replaceSymbol] forgets the slot assignments of the previous
    occupant: afterwards [DynsymIndex] is 0, the four other indices are
    all-ones, and [isInGot] and [isInPlt] are false. *)
Theorem replaceSymbol_resets_indices S Arg u log :
  let s := base (fst (replaceSymbol Config S Arg u log)) in
  DynsymIndex s = 0 /\
  GotIndex s = Z.ones 32 /\
  GotPltIndex s = Z.ones 32 /\
  PltIndex s = Z.ones 32 /\
  GlobalDynIndex s = Z.ones 32 /\
  isInGot s = false /\
  isInPlt s = false.
Proof.
  cbv zeta. rewrite replaceSymbol_fst, construct_base.
  repeat split; reflexivity.
Qed.

(** X6.  [replaceSymbol] forgets the previous occupant's [NeedsPltAddr],
    [IsInGlobalMipsGot], [Is32BitMipsGot], [IsInIplt], [IsInIgot] and
    [IsPreemptible], which are false afterwards, and sets [Used] to the
    negation of [Config->GcSections]. *)
Theorem replaceSymbol_resets_flags S Arg u log :
  let s := base (fst (replaceSymbol Config S Arg u log)) in
  NeedsPltAddr s = false /\
  IsInGlobalMipsGot s = false /\
  Is32BitMipsGot s = false /\
  IsInIplt s = false /\
  IsInIgot s = false /\
  IsPreemptible s = false /\
  Used s = negb (GcSections Config).
Proof.
  cbv zeta. rewrite replaceSymbol_fst, construct_base.
  repeat split; reflexivity.
Qed.

(** X7.  After [replaceSymbol] the file, the [st_other] value and the type
    of the slot are the ones the new variant's constructor hands to
    [Symbol::Symbol]; in particular the file is not null when the new variant
    is a [SharedSymbol], a [LazyArchive] or a [LazyObject]. *)
Theorem replaceSymbol_takes_constructor_values S Arg u log :
  let s := base (fst (replaceSymbol Config S Arg u log)) in
  File s = target_File Arg /\
  StOther s = target_StOther Arg /\
  Type_ s = target_Type Arg /\
  (target_kind Arg <> DefinedKind -> target_kind Arg <> UndefinedKind ->
   File s <> None).
Proof.
  cbv zeta. rewrite replaceSymbol_fst, construct_base.
  repeat split; try reflexivity.
  cbn [Symbol_ctor File].
  destruct Arg; cbn [target_kind target_File]; intros H1 H2;
    try contradiction; discriminate.
Qed.

(** X8.  When the new variant is a [SharedSymbol], the slot is never of
    type GNU-IFUNC after [replaceSymbol], and [isFunc] holds exactly when the
    type given was FUNC or GNU-IFUNC. *)
Theorem replaceSymbol_SharedSymbol_type S File Name Binding StOther Type'
    Value Size Alignment VerdefIndex u log :
  let s := base (fst (replaceSymbol Config S
                        (NewSharedSymbol File Name Binding StOther Type'
                           Value Size Alignment VerdefIndex) u log)) in
  isShared s = true /\
  isGnuIFunc s = false /\
  isFunc s = (Type' =? ELF.STT_FUNC) || (Type' =? ELF.STT_GNU_IFUNC).
Proof.
  cbv zeta. rewrite replaceSymbol_fst, construct_base.
  unfold isShared, isGnuIFunc, isFunc.
  cbn [Symbol_ctor Type_ SymbolKind target_kind target_Type Kind_eqb].
  split; [reflexivity |].
  destruct (Z.eqb_spec Type' ELF.STT_GNU_IFUNC) as [E | E].
  - subst. split; reflexivity.
  - split.
    + now apply Z.eqb_neq.
    + now rewrite orb_false_r.
Qed.

(** X9.  A newly constructed [LazyArchive] or [LazyObject] has binding
    [STB_GLOBAL], [st_other] [STV_DEFAULT] and a file that is not null: it is
    lazy and neither weak, local nor undefined-weak, and a [LazyArchive] is
    named as the archive symbol it was made from. *)
Theorem Lazy_ctor_binding (F : InputFile) Sym Name Type' u :
  let a := base (LazyArchive_ctor Config F Sym Type' u) in
  let o := base (LazyObject_ctor Config F Name Type' u) in
  (Binding a = ELF.STB_GLOBAL /\ StOther a = ELF.STV_DEFAULT /\
   File a = Some F /\
   isLazy a = true /\ isWeak a = false /\ isLocal a = false /\
   isUndefWeak a = false /\ getName a = ArchiveSymbol_getName Sym) /\
  (Binding o = ELF.STB_GLOBAL /\ StOther o = ELF.STV_DEFAULT /\
   File o = Some F /\
   isLazy o = true /\ isWeak o = false /\ isLocal o = false /\
   isUndefWeak o = false /\ getName o = Name).
Proof. cbv zeta. repeat split; reflexivity. Qed.

(** ** Histories *)

Lemma replaceSymbols_app S steps1 steps2 log :
  replaceSymbols Config S (steps1 ++ steps2) log =
  replaceSymbols Config (fst (replaceSymbols Config S steps1 log)) steps2
    (snd (replaceSymbols Config S steps1 log)).
Proof.
  revert S log. induction steps1 as [| [Arg u] rest IH]; intros S log.
  - reflexivity.
  - cbn [app]. rewrite !replaceSymbols_cons. apply IH.
Qed.

Lemma replaceSymbols_snapshot S steps log :
  snapshot (base (fst (replaceSymbols Config S steps log))) = snapshot (base S).
Proof.
  revert S log. induction steps as [| [Arg u] rest IH]; intros S log.
  - reflexivity.
  - rewrite replaceSymbols_cons, IH, replaceSymbol_fst. apply construct_snapshot.
Qed.

(** X10.  Over any sequence of transitions applied to a slot, [VersionId],
    [Visibility], [IsUsedInRegularObj], [ExportDynamic], [CanInline], [Traced]
    and [InVersionScript] stay what they were at the start. *)
Theorem replaceSymbols_preserves S steps log :
  let before := base S in
  let after := base (fst (replaceSymbols Config S steps log)) in
  VersionId after = VersionId before /\
  Visibility after = Visibility before /\
  IsUsedInRegularObj after = IsUsedInRegularObj before /\
  ExportDynamic after = ExportDynamic before /\
  CanInline after = CanInline before /\
  Traced after = Traced before /\
  InVersionScript after = InVersionScript before.
Proof.
  cbv zeta. pose proof (replaceSymbols_snapshot S steps log) as H.
  unfold snapshot in H. injection H as -> -> -> -> -> -> ->.
  repeat split; reflexivity.
Qed.

(** X11.  Only the last transition of a sequence shows in the slot: after
    any transitions followed by one more, the slot holds what that last
    transition alone would have left in the original slot. *)
Theorem replaceSymbols_last_wins S steps Arg u log log' :
  fst (replaceSymbols Config S (steps ++ [(Arg, u)]) log) =
  fst (replaceSymbol Config S Arg u log').
Proof.
  rewrite replaceSymbols_app, replaceSymbols_cons. cbn [replaceSymbols].
  unfold ret. cbn [fst].
  rewrite !replaceSymbol_fst, replaceSymbols_snapshot. reflexivity.
Qed.

(** X12.  Over a sequence of transitions on a slot whose [Traced] is set,
    [printTraceSymbol] is called once per transition, in order, each time on a
    symbol of the class just constructed that carries the slot's preserved
    members; on a slot whose [Traced] is not set it is never called. *)
Theorem replaceSymbols_trace S steps log :
  exists shown,
    snd (replaceSymbols Config S steps log) = log ++ shown /\
    map (fun e => kind (base e)) shown =
      (if Traced (base S) then map (fun step => target_kind (fst step)) steps else []) /\
    Forall (fun e => snapshot (base e) = snapshot (base S)) shown.
Proof.
  revert S log. induction steps as [| [Arg u] rest IH]; intros S log.
  - exists []. cbn. rewrite app_nil_r. destruct (Traced (base S)); auto.
  - rewrite replaceSymbols_cons.
    destruct (IH (fst (replaceSymbol Config S Arg u log))
                 (snd (replaceSymbol Config S Arg u log)))
      as (shown & Hlog & Hkinds & Hsnap).
    rewrite replaceSymbol_snd in Hlog.
    assert (Hs : snapshot (base (fst (replaceSymbol Config S Arg u log))) =
                 snapshot (base S))
      by (rewrite replaceSymbol_fst; apply construct_snapshot).
    assert (Ht : Traced (base (fst (replaceSymbol Config S Arg u log))) =
                 Traced (base S))
      by (change (uTraced (snapshot (base (fst (replaceSymbol Config S Arg u log)))) =
                  uTraced (snapshot (base S))); now rewrite Hs).
    rewrite Ht in Hkinds. rewrite Hs in Hsnap.
    exists ((if Traced (base S)
             then [construct Config Arg (snapshot (base S))] else []) ++ shown).
    split; [| split].
    + rewrite replaceSymbol_snd, Hlog. now rewrite app_assoc.
    + destruct (Traced (base S)); cbn [app map fst].
      * rewrite Hkinds, construct_kind. reflexivity.
      * exact Hkinds.
    + apply Forall_app. split; [| exact Hsnap].
      destruct (Traced (base S)); constructor; [| constructor].
      apply construct_snapshot.
Qed.

End ReplaceMore.
